(** * eiffelactory.eiffel: Eiffel event model, factory and classifiers

    A shallow embedding of [src/eiffelactory/eiffel.py].

    - Python values are the inductive [value]; every model class of the
      module inherits from [dict], so its instances are [VDict] values
      over a finite map with string keys.
    - A raised exception is the [Raise] case of [result].
    - [uuid.uuid4] and [utils.current_time_millis] are the two calls that
      leave the module; code that may perform them is a [prog]ram over
      those two operations, run against a provider by [run]. *)

From stdpp Require Import gmap strings list fin_maps pretty.
From Stdlib Require Import ZArith.

Local Open Scope string_scope.
Local Open Scope Z_scope.

(* set_solver clears hypotheses by name; it warns when one is gone. *)
#[local] Set Warnings "-clear-no-such-hyp".

(** ** Python values *)

(** The values an event document is made of: what [json.loads] yields
    (floats left out) and what the constructors of this module build. *)
#[warnings="-register-all"]
Inductive value : Type :=
  | VNone
  | VBool (b : bool)
  | VInt (z : Z)
  | VStr (s : string)
  | VList (l : list value)
  | VDict (d : gmap string value).

(** ** Exceptions *)

Inductive exn : Type :=
  | KeyError (k : string)
  | TypeError.

Inductive result (A : Type) : Type :=
  | Ok (a : A)
  | Raise (e : exn).
Arguments Ok {A} a.
Arguments Raise {A} e.

(** Sequencing stops at the first exception. *)
Global Instance result_ret : MRet result := λ A a, Ok a.
Global Instance result_bind : MBind result := λ A B k r,
  match r with
  | Ok a => k a
  | Raise e => Raise e
  end.

Definition raises {A} (r : result A) : Prop :=
  match r with
  | Ok _ => False
  | Raise _ => True
  end.

(** ** Operators of the language used by the module *)

(** [s1 in s2] for two strings: [s1] occurs in [s2]. *)
Fixpoint is_prefix (p s : string) : bool :=
  match p, s with
  | EmptyString, _ => true
  | String a p', String b s' => if decide (a = b) then is_prefix p' s' else false
  | String _ _, EmptyString => false
  end.

Fixpoint str_contains (p s : string) : bool :=
  is_prefix p s ||
  match s with
  | EmptyString => false
  | String _ s' => str_contains p s'
  end.

(** [v == s] where [s] is a string: only an equal string compares equal. *)
Definition eq_str (v : value) (s : string) : bool :=
  match v with
  | VStr s' => bool_decide (s' = s)
  | _ => false
  end.

(** [v[k]] with a string key [k]. *)
Definition getitem (v : value) (k : string) : result value :=
  match v with
  | VDict d =>
      match d !! k with
      | Some x => Ok x
      | None => Raise (KeyError k)
      end
  | _ => Raise TypeError
  end.

(** [k in v] with a string [k]: key membership on a dict, element
    membership on a list, substring on a string; the other values are
    not containers. *)
Definition contains (k : string) (v : value) : result bool :=
  match v with
  | VDict d => Ok (bool_decide (is_Some (d !! k)))
  | VList l => Ok (existsb (λ x, eq_str x k) l)
  | VStr s => Ok (str_contains k s)
  | _ => Raise TypeError
  end.

(** [v is None]. *)
Definition is_None (v : value) : bool :=
  match v with
  | VNone => true
  | _ => false
  end.

(** [v in sources], [sources] a list of source names. *)
Definition in_names (v : value) (sources : list string) : bool :=
  existsb (eq_str v) sources.

(** [a or b] on booleans: [b] is evaluated only when [a] is false. *)
Definition por (a b : result bool) : result bool :=
  x ← a; if x : bool then mret true else b.

(** ** Calls that leave the module *)

(** A computation that may ask for [str(uuid.uuid4())] and for
    [utils.current_time_millis()] before it returns. [uuid] is the
    standard library's and [eiffelactory.utils] is not among the sources
    at hand: both calls are operations answered from outside, the first
    with a string, the second with an integer of milliseconds. *)
Inductive prog (A : Type) : Type :=
  | Ret (a : A)
  | Uuid4 (k : string → prog A)
  | CurrentTimeMillis (k : Z → prog A).
Arguments Ret {A} a.
Arguments Uuid4 {A} k.
Arguments CurrentTimeMillis {A} k.

Fixpoint prog_bind {A B} (k : A → prog B) (p : prog A) : prog B :=
  match p with
  | Ret a => k a
  | Uuid4 f => Uuid4 (λ s, prog_bind k (f s))
  | CurrentTimeMillis f => CurrentTimeMillis (λ t, prog_bind k (f t))
  end.

Global Instance prog_ret : MRet prog := λ A a, Ret a.
Global Instance prog_mbind : MBind prog := λ A B k p, prog_bind k p.

Definition uuid4_str : prog string := Uuid4 Ret.
Definition current_time_millis : prog Z := CurrentTimeMillis Ret.

(** The provider: the identifier handed out by the [n]-th call of
    [uuid.uuid4] and the time read by the [n]-th call of
    [utils.current_time_millis]. *)
Record provider : Type := Provider {
  nth_uuid : nat → string;
  nth_time : nat → Z
}.

(** How many calls of each kind have been made so far. *)
Record calls : Type := Calls {
  uuid_calls : nat;
  time_calls : nat
}.

Fixpoint run {A} (P : provider) (p : prog A) (c : calls) : A * calls :=
  match p with
  | Ret a => (a, c)
  | Uuid4 k =>
      run P (k (nth_uuid P (uuid_calls c)))
          (Calls (S (uuid_calls c)) (time_calls c))
  | CurrentTimeMillis k =>
      run P (k (nth_time P (time_calls c)))
          (Calls (uuid_calls c) (S (time_calls c)))
  end.

(** ** Constants of the module *)

Definition EIFFEL_ARTIFACT_PUBLISHED_EVENT : string := "EiffelArtifactPublishedEvent".
Definition EIFFEL_ARTIFACT_CREATED_EVENT : string := "EiffelArtifactCreatedEvent".
Definition VERSION_3_0_0 : string := "3.0.0".
Definition EIFFELACTORY : string := "EIFFELACTORY".
Definition Link_ARTIFACT : string := "ARTIFACT".
Definition Location_ARTIFACTORY : string := "ARTIFACTORY".

(** ** The model classes *)

(** [d.update(other, **kwargs)]: the items of [other], then the keyword
    arguments from left to right, each overwriting an earlier value. *)
Definition dict_update (d other : gmap string value)
    (kwargs : list (string * value)) : gmap string value :=
  foldl (λ m kv, <[kv.1 := kv.2]> m) (other ∪ d) kwargs.

(** Every class calls [super().__init__(self, k1=v1, ...)]: [dict.__init__]
    receives the instance under construction, still empty, as the mapping
    to copy, followed by the keyword arguments. *)
Definition dict_init (kwargs : list (string * value)) : value :=
  let self : gmap string value := ∅ in
  VDict (dict_update self self kwargs).

Definition Event (data links meta : value) : value :=
  dict_init [("data", data); ("links", links); ("meta", meta)].

Definition Meta (event_type version event_id time tags source : value)
    : prog value :=
  event_id ← (if is_None event_id
              then s ← uuid4_str; mret (VStr s)
              else mret event_id);
  time ← (if is_None time
          then t ← current_time_millis; mret (VInt t)
          else mret time);
  mret (dict_init [("id", event_id); ("type", event_type);
                   ("version", version); ("time", time);
                   ("tags", tags); ("source", source)]).

Definition Source (domain_id host name serializer uri : value) : value :=
  dict_init [("domainId", domain_id); ("host", host); ("name", name);
             ("serializer", serializer); ("uri", uri)].

Definition Link (link_type target : value) : value :=
  dict_init [("type", link_type); ("target", target)].

Definition ArtifactPublishedData (locations : value) : value :=
  dict_init [("locations", locations)].

Definition Location (uri location_type : value) : value :=
  dict_init [("type", location_type); ("uri", uri)].

(** Calls that leave parameters at their defaults. *)
Definition Source_default : value :=
  Source VNone VNone (VStr EIFFELACTORY) VNone VNone.

Definition Location_default (uri : value) : value :=
  Location uri (VStr Location_ARTIFACTORY).

(** ** The factory *)

Definition create_artifact_published_event (artc_event_id locations : value)
    : prog value :=
  let data := ArtifactPublishedData locations in
  let links := VList [Link (VStr Link_ARTIFACT) artc_event_id] in
  meta ← Meta (VStr EIFFEL_ARTIFACT_PUBLISHED_EVENT) (VStr VERSION_3_0_0)
              VNone VNone VNone Source_default;
  let event := Event data links meta in
  mret event.

(** ** The classifiers *)

Definition is_eiffel_event_type (event : value) (event_type : string)
    : result bool :=
  meta ← getitem event "meta";
  ty ← getitem meta "type";
  mret (eq_str ty event_type).

Definition is_artifact_created_event (event : value) : result bool :=
  is_eiffel_event_type event EIFFEL_ARTIFACT_CREATED_EVENT.

Definition is_sent_from_sources (event : value) (sources : list string)
    : result bool :=
  no_source ←
    por (b ← (getitem event "meta" ≫= contains "source"); mret (negb b))
        (s ← (getitem event "meta" ≫= λ m, getitem m "source");
         mret (is_None s));
  if no_source : bool then mret false else
  no_name ←
    por (b ← (getitem event "meta" ≫= λ m, getitem m "source"
                ≫= contains "name");
         mret (negb b))
        (n ← (getitem event "meta" ≫= λ m, getitem m "source"
                ≫= λ s, getitem s "name");
         mret (is_None n));
  if no_name : bool then mret false else
  n ← (getitem event "meta" ≫= λ m, getitem m "source"
         ≫= λ s, getitem s "name");
  mret (in_names n sources).

(** ** Reading a document *)

(** [v[k1][k2]...]: the chain of subscripts the classifiers use. *)
Fixpoint path (v : value) (ks : list string) : result value :=
  match ks with
  | [] => Ok v
  | k :: ks' => v' ← getitem v k; path v' ks'
  end.

(** The document is an object whose [meta] is an object with a [type]. *)
Definition has_meta_type (event : value) : bool :=
  match path event ["meta"; "type"] with
  | Ok _ => true
  | Raise _ => false
  end.

(** The document is an object whose [meta] is an object in which
    [source] is missing, [None] or again an object. *)
Definition source_well_shaped (event : value) : bool :=
  match event with
  | VDict d =>
      match d !! "meta" with
      | Some (VDict m) =>
          match m !! "source" with
          | None | Some VNone | Some (VDict _) => true
          | Some _ => false
          end
      | _ => false
      end
  | _ => false
  end.

(** A document is a dict with exactly the keys [ks]. *)
Definition has_keys (v : value) (ks : gset string) : Prop :=
  ∃ d, v = VDict d ∧ dom d = ks.

(** A provider to run the examples against: the [n]-th identifier is
    the decimal numeral of [n], the [n]-th time read is [n]. *)
Definition counting_provider : provider :=
  Provider (λ n, pretty n) (λ n, Z.of_nat n).

Definition no_calls : calls := Calls 0 0.

(** Sample documents: [{"meta": {"type": "EiffelArtifactCreatedEvent",
    "source": {"name": "a"}}}] and [{"meta": {"type": "X"}}]. *)
Definition sample_created_from_a : value :=
  VDict {[ "meta" :=
    VDict {[ "type" := VStr "EiffelArtifactCreatedEvent";
             "source" := VDict {[ "name" := VStr "a" ]} ]} ]}.

Definition sample_without_source : value :=
  VDict {[ "meta" := VDict {[ "type" := VStr "X" ]} ]}.

(** ** Worked examples *)

Example ex_sent_from_a :
  is_sent_from_sources sample_created_from_a ["a"; "b"] = Ok true.
Proof. vm_compute. reflexivity. Qed.

Example ex_no_source_key :
  is_sent_from_sources sample_without_source ["a"; "b"] = Ok false.
Proof. vm_compute. reflexivity. Qed.

Example ex_created_event_links_and_data :
  let event :=
    (run counting_provider
       (create_artifact_published_event (VStr "abc-123")
          (VList [Location_default (VStr "http://x/a.jar")])) no_calls).1 in
  path event ["links"]
  = Ok (VList [VDict {[ "type" := VStr "ARTIFACT";
                        "target" := VStr "abc-123" ]}]) ∧
  path event ["data"]
  = Ok (VDict {[ "locations" :=
          VList [VDict {[ "uri" := VStr "http://x/a.jar";
                          "type" := VStr "ARTIFACTORY" ]}] ]}) ∧
  path event ["meta"; "id"] = Ok (VStr "0") ∧
  path event ["meta"; "time"] = Ok (VInt 0).
Proof. repeat split; vm_compute; reflexivity. Qed.

Example ex_meta_with_explicit_id :
  run counting_provider
    (Meta (VStr "T") (VStr "3.0.0") (VStr "my-id") VNone VNone VNone)
    no_calls
  = (VDict {[ "id" := VStr "my-id"; "type" := VStr "T";
              "version" := VStr "3.0.0"; "time" := VInt 0;
              "tags" := VNone; "source" := VNone ]},
     Calls 0 1).
Proof. vm_compute. reflexivity. Qed.

Example ex_source_is_text :
  is_sent_from_sources
    (VDict {[ "meta" := VDict {[ "source" := VStr "nickname" ]} ]}) ["a"]
  = Raise TypeError.
Proof. vm_compute. reflexivity. Qed.

Example ex_type_is_case_sensitive :
  is_eiffel_event_type
    (VDict {[ "meta" := VDict {[ "type" := VStr "eiffelartifactcreatedevent" ]} ]})
    EIFFEL_ARTIFACT_CREATED_EVENT = Ok false.
Proof. vm_compute. reflexivity. Qed.

(** ** Properties of the operators *)

Section operators.
Implicit Types (v : value) (s : string) (d : gmap string value).

Lemma eq_str_true v s : eq_str v s = true ↔ v = VStr s.
Proof.
  destruct v; simpl; try (split; [discriminate | discriminate]).
  rewrite bool_decide_eq_true. split; congruence.
Qed.

Lemma eq_str_false v s : eq_str v s = false ↔ v ≠ VStr s.
Proof.
  rewrite <- eq_str_true. destruct (eq_str v s); split; congruence.
Qed.

Lemma in_names_true v (names : list string) :
  in_names v names = true ↔ ∃ s, v = VStr s ∧ s ∈ names.
Proof.
  unfold in_names. rewrite existsb_exists. split.
  - intros (s & Hin & Heq). exists s.
    apply eq_str_true in Heq. by rewrite list_elem_of_In.
  - intros (s & -> & Hin). exists s. split.
    + by apply list_elem_of_In.
    + by apply eq_str_true.
Qed.

Lemma in_names_None (names : list string) : in_names VNone names = false.
Proof. unfold in_names. by induction names. Qed.

Lemma getitem_Ok v k x :
  getitem v k = Ok x ↔ ∃ d, v = VDict d ∧ d !! k = Some x.
Proof.
  split.
  - destruct v as [| | | | |d]; simpl; try discriminate.
    destruct (d !! k) as [y|] eqn:Hk; [|discriminate].
    intros [= ->]. eauto.
  - intros (d & -> & Hk). simpl. by rewrite Hk.
Qed.

Lemma contains_dict k d :
  contains k (VDict d) = Ok (match d !! k with Some _ => true | None => false end).
Proof. simpl. by destruct (d !! k). Qed.
End operators.

(** ** The classifiers *)

Section classifiers.
Implicit Types (event v : value) (d m s : gmap string value).
Implicit Types (event_type : string) (sources : list string).

(** On a document with a [meta] object the type check is the
    comparison of [meta.type], when there is one. *)
Lemma is_eiffel_event_type_path event event_type :
  is_eiffel_event_type event event_type
  = (ty ← path event ["meta"; "type"]; mret (eq_str ty event_type)).
Proof.
  unfold is_eiffel_event_type. simpl.
  destruct (getitem event "meta") as [meta|e]; [|done]. simpl.
  by destruct (getitem meta "type").
Qed.

(** What [is_sent_from_sources] computes once [meta] is an object,
    by the shape of [meta.source]. *)
Lemma is_sent_from_sources_no_source d m sources :
  d !! "meta" = Some (VDict m) → m !! "source" = None →
  is_sent_from_sources (VDict d) sources = Ok false.
Proof.
  intros Hm Hs. unfold is_sent_from_sources. simpl.
  rewrite Hm. simpl. by rewrite Hs.
Qed.

Lemma is_sent_from_sources_null_source d m sources :
  d !! "meta" = Some (VDict m) → m !! "source" = Some VNone →
  is_sent_from_sources (VDict d) sources = Ok false.
Proof.
  intros Hm Hs. unfold is_sent_from_sources. simpl.
  rewrite Hm. simpl. by rewrite Hs.
Qed.

Lemma is_sent_from_sources_dict_source d m s sources :
  d !! "meta" = Some (VDict m) → m !! "source" = Some (VDict s) →
  is_sent_from_sources (VDict d) sources
  = Ok (match s !! "name" with
        | Some n => in_names n sources
        | None => false
        end).
Proof.
  intros Hm Hs. unfold is_sent_from_sources. simpl.
  rewrite Hm. simpl. rewrite Hs. simpl.
  destruct (s !! "name") as [n|] eqn:Hn; simpl; [|done].
  destruct n; simpl; try done. by rewrite in_names_None.
Qed.

Lemma source_well_shaped_inv event :
  source_well_shaped event = true →
  ∃ d m, event = VDict d ∧ d !! "meta" = Some (VDict m) ∧
    (m !! "source" = None ∨ m !! "source" = Some VNone ∨
     ∃ s, m !! "source" = Some (VDict s)).
Proof.
  destruct event as [| | | | |d]; simpl; try discriminate.
  destruct (d !! "meta") as [[| | | | |m]|] eqn:Hm; try discriminate.
  destruct (m !! "source") as [[| | | | |s]|] eqn:Hs; try discriminate;
    intros _; exists d, m; eauto 6.
Qed.

(** [is_sent_from_sources] answers true only by finding the name. *)
Lemma is_sent_from_sources_true event sources :
  is_sent_from_sources event sources = Ok true ↔
  ∃ name, path event ["meta"; "source"; "name"] = Ok (VStr name) ∧
          name ∈ sources.
Proof.
  split.
  - unfold is_sent_from_sources. simpl.
    destruct (getitem event "meta") as [meta|]; simpl; [|discriminate].
    destruct (contains "source" meta) as [[]|]; simpl; try discriminate.
    destruct (getitem meta "source") as [src|]; simpl; [|discriminate].
    destruct (is_None src); simpl; [discriminate|].
    destruct (contains "name" src) as [[]|]; simpl; try discriminate.
    destruct (getitem src "name") as [n|]; simpl; [|discriminate].
    destruct (is_None n); simpl; [discriminate|].
    intros [= Hin]. apply in_names_true in Hin as (name & -> & Hin). eauto.
  - intros (name & Hp & Hin). simpl in Hp.
    destruct (getitem event "meta") as [meta|] eqn:Hmeta; simpl in Hp; [|done].
    destruct (getitem meta "source") as [src|] eqn:Hsrc; simpl in Hp; [|done].
    destruct (getitem src "name") as [n|] eqn:Hn; simpl in Hp; [|done].
    injection Hp as ->.
    apply getitem_Ok in Hmeta as (d & -> & Hd).
    apply getitem_Ok in Hsrc as (m & -> & Hm).
    apply getitem_Ok in Hn as (s & -> & Hs).
    rewrite (is_sent_from_sources_dict_source d m s) by done.
    rewrite Hs. f_equal. apply in_names_true. eauto.
Qed.
End classifiers.

Section classifier_claims.
Implicit Types (event v : value) (d m s : gmap string value).
Implicit Types (event_type : string) (sources : list string).

(** The type check returns exactly on the documents that have a
    [meta.type] to read. *)
Lemma is_eiffel_event_type_returns_iff event event_type :
  (∃ b, is_eiffel_event_type event event_type = Ok b) ↔
  has_meta_type event = true.
Proof.
  rewrite is_eiffel_event_type_path. unfold has_meta_type.
  destruct (path event ["meta"; "type"]) as [ty|e]; simpl.
  - split; eauto.
  - split; [intros [b [=]] | discriminate].
Qed.

(** C2: on an event document (an object whose [meta] is an object in
    which [source] is missing, null or an object),
    [is_sent_from_sources] returns false when [meta.source] is missing
    or null, when [meta.source.name] is missing or null, and when the
    name is not one of [sources]; it returns true exactly when
    [meta.source.name] is one of [sources]; and it always returns. *)
Theorem is_sent_from_sources_spec event sources :
  source_well_shaped event = true →
  (path event ["meta"; "source"] = Raise (KeyError "source") →
     is_sent_from_sources event sources = Ok false) ∧
  (path event ["meta"; "source"] = Ok VNone →
     is_sent_from_sources event sources = Ok false) ∧
  (path event ["meta"; "source"; "name"] = Raise (KeyError "name") →
     is_sent_from_sources event sources = Ok false) ∧
  (path event ["meta"; "source"; "name"] = Ok VNone →
     is_sent_from_sources event sources = Ok false) ∧
  (∀ n, path event ["meta"; "source"; "name"] = Ok n →
     (∀ name, n = VStr name → name ∉ sources) →
     is_sent_from_sources event sources = Ok false) ∧
  (is_sent_from_sources event sources = Ok true ↔
     ∃ name, path event ["meta"; "source"; "name"] = Ok (VStr name) ∧
             name ∈ sources) ∧
  (∃ b, is_sent_from_sources event sources = Ok b).
Proof.
  intros Hshape.
  destruct (source_well_shaped_inv _ Hshape)
    as (d & m & -> & Hm & [Hs | [Hs | [s Hs]]]).
  - rewrite (is_sent_from_sources_no_source d m) by done.
    repeat split; eauto; try (by intros [=]).
    simpl. rewrite Hm. simpl. rewrite Hs. simpl. intros (? & [=] & _).
  - rewrite (is_sent_from_sources_null_source d m) by done.
    repeat split; eauto; try (by intros [=]).
    simpl. rewrite Hm. simpl. rewrite Hs. simpl. intros (? & [=] & _).
  - pose proof (is_sent_from_sources_true (VDict d) sources) as Htrue.
    rewrite (is_sent_from_sources_dict_source d m s) in * by done.
    simpl. rewrite Hm. simpl. rewrite Hs. simpl.
    simpl in Htrue. rewrite Hm in Htrue. simpl in Htrue.
    rewrite Hs in Htrue. simpl in Htrue.
    destruct (s !! "name") as [n|] eqn:Hn; simpl in *.
    + repeat split; eauto; try discriminate; try apply Htrue.
      * intros [= ->]. by rewrite in_names_None.
      * intros n' [= <-] Hnot. f_equal.
        apply not_true_is_false. intros Hin.
        apply in_names_true in Hin as (name & -> & Hin).
        by apply (Hnot name).
    + repeat split; eauto; try discriminate; try apply Htrue.
Qed.

(** C3 (amended): the two type checks return a boolean exactly on the
    documents that are an object whose [meta] is an object carrying a
    [type]; [is_sent_from_sources] returns a boolean on every document
    that is an object whose [meta] is an object in which [source] is
    missing, null or an object, and this boolean is false when [source]
    or its [name] is missing or null. *)
Theorem classifiers_return_on_shaped_documents event event_type sources :
  ((∃ b, is_eiffel_event_type event event_type = Ok b) ↔
     has_meta_type event = true) ∧
  ((∃ b, is_artifact_created_event event = Ok b) ↔
     has_meta_type event = true) ∧
  (source_well_shaped event = true →
     (∃ b, is_sent_from_sources event sources = Ok b) ∧
     (path event ["meta"; "source"] = Raise (KeyError "source") ∨
      path event ["meta"; "source"] = Ok VNone ∨
      path event ["meta"; "source"; "name"] = Raise (KeyError "name") ∨
      path event ["meta"; "source"; "name"] = Ok VNone →
      is_sent_from_sources event sources = Ok false)).
Proof.
  split; [|split].
  - apply is_eiffel_event_type_returns_iff.
  - apply is_eiffel_event_type_returns_iff.
  - intros Hshape.
    destruct (source_well_shaped_inv _ Hshape)
      as (d & m & -> & Hm & [Hs | [Hs | [s Hs]]]).
    + rewrite (is_sent_from_sources_no_source d m) by done. eauto.
    + rewrite (is_sent_from_sources_null_source d m) by done. eauto.
    + rewrite (is_sent_from_sources_dict_source d m s) by done.
      split; [eauto|].
      simpl. rewrite Hm. simpl. rewrite Hs. simpl.
      destruct (s !! "name") as [n|]; simpl; [|done].
      intros [[=] | [[=] | [[=] | [= ->]]]]. by rewrite in_names_None.
Qed.

(** C4: when the document has a [meta.type], [is_eiffel_event_type]
    returns true if and only if [meta.type] is the string [event_type]
    itself, and false for every other [event_type]. *)
Theorem is_eiffel_event_type_iff event ty event_type :
  path event ["meta"; "type"] = Ok ty →
  (is_eiffel_event_type event event_type = Ok true ↔ ty = VStr event_type) ∧
  (is_eiffel_event_type event event_type = Ok false ↔ ty ≠ VStr event_type).
Proof.
  intros Hp. rewrite is_eiffel_event_type_path, Hp. simpl.
  pose proof (eq_str_true ty event_type) as Ht.
  pose proof (eq_str_false ty event_type) as Hf.
  destruct (eq_str ty event_type); split; (split; [intros [=] | intros Hty]);
    try tauto; try (by apply Hf in Hty); by apply Ht in Hty.
Qed.

(** C5: [is_artifact_created_event] gives on every document what
    [is_eiffel_event_type] gives for "EiffelArtifactCreatedEvent",
    the value returned or the exception raised. *)
Theorem is_artifact_created_event_eq event :
  is_artifact_created_event event
  = is_eiffel_event_type event "EiffelArtifactCreatedEvent".
Proof. reflexivity. Qed.
End classifier_claims.

(** ** Running programs *)

Section running.
Context {A B : Type}.
Implicit Types (P : provider) (c : calls).

Lemma run_bind P (p : prog A) (k : A → prog B) c :
  run P (p ≫= k) c = run P (k (run P p c).1) (run P p c).2.
Proof.
  revert c. induction p as [a|f IH|f IH]; intros c; simpl.
  - done.
  - apply IH.
  - apply IH.
Qed.

(** Calls are only ever added. *)
Lemma run_calls_mono P (p : prog A) c :
  (uuid_calls c ≤ uuid_calls (run P p c).2)%nat ∧
  (time_calls c ≤ time_calls (run P p c).2)%nat.
Proof.
  revert c. induction p as [a|f IH|f IH]; intros c; simpl.
  - done.
  - destruct (IH (nth_uuid P (uuid_calls c))
                 (Calls (S (uuid_calls c)) (time_calls c))) as [H1 H2].
    simpl in *. lia.
  - destruct (IH (nth_time P (time_calls c))
                 (Calls (uuid_calls c) (S (time_calls c)))) as [H1 H2].
    simpl in *. lia.
Qed.
End running.

(** ** The model classes *)

Section model_classes.
Implicit Types (kwargs : list (string * value)) (d : gmap string value).
Implicit Types (P : provider) (c : calls).

Lemma dict_update_dom d other kwargs :
  dom (dict_update d other kwargs)
  = dom other ∪ dom d ∪ list_to_set kwargs.*1.
Proof.
  unfold dict_update. rewrite <- dom_union_L.
  generalize (other ∪ d). clear d other.
  induction kwargs as [|[k v] kwargs IH]; intros acc; simpl.
  - set_solver.
  - rewrite IH, dom_insert_L. set_solver.
Qed.

(** A keyword argument that is not repeated to its right is the
    value found under its key. *)
Lemma dict_update_lookup d other kwargs k v :
  NoDup kwargs.*1 → (k, v) ∈ kwargs →
  dict_update d other kwargs !! k = Some v.
Proof.
  unfold dict_update. generalize (other ∪ d). clear d other.
  induction kwargs as [|[k' v'] kwargs IH]; intros acc Hnd Hin; simpl.
  - by apply elem_of_nil in Hin.
  - simpl in Hnd. apply NoDup_cons in Hnd as [Hk' Hnd].
    apply elem_of_cons in Hin as [[= <- <-]|Hin].
    + clear IH Hnd. revert acc.
      induction kwargs as [|[k2 v2] kwargs IH]; intros acc; simpl.
      * apply lookup_insert_eq.
      * simpl in Hk'. apply not_elem_of_cons in Hk' as [Hne Hk'].
        rewrite (insert_insert_ne acc) by done. by apply IH.
    + by apply IH.
Qed.

Lemma dict_init_keys kwargs ks :
  ks = list_to_set kwargs.*1 → has_keys (dict_init kwargs) ks.
Proof.
  intros ->. eexists. split; [reflexivity|].
  rewrite dict_update_dom. set_solver.
Qed.

Lemma dict_init_getitem kwargs k v :
  NoDup kwargs.*1 → (k, v) ∈ kwargs →
  getitem (dict_init kwargs) k = Ok v.
Proof.
  intros Hnd Hin. unfold dict_init. simpl.
  by rewrite (dict_update_lookup _ _ _ k v).
Qed.

(** [Meta.__init__] asks for an identifier only when [event_id] is
    [None] and for the time only when [time] is [None], in that
    order. *)
Lemma run_Meta P c event_type version event_id time tags source :
  run P (Meta event_type version event_id time tags source) c
  = (dict_init
       [("id", if is_None event_id
               then VStr (nth_uuid P (uuid_calls c)) else event_id);
        ("type", event_type); ("version", version);
        ("time", if is_None time
                 then VInt (nth_time P (time_calls c)) else time);
        ("tags", tags); ("source", source)],
     Calls (if is_None event_id then S (uuid_calls c) else uuid_calls c)
           (if is_None time then S (time_calls c) else time_calls c)).
Proof.
  unfold Meta. destruct c as [i t].
  by destruct (is_None event_id), (is_None time).
Qed.

Lemma run_create_artifact_published_event P c artc_event_id locations :
  run P (create_artifact_published_event artc_event_id locations) c
  = (Event (ArtifactPublishedData locations)
           (VList [Link (VStr Link_ARTIFACT) artc_event_id])
           (dict_init
              [("id", VStr (nth_uuid P (uuid_calls c)));
               ("type", VStr EIFFEL_ARTIFACT_PUBLISHED_EVENT);
               ("version", VStr VERSION_3_0_0);
               ("time", VInt (nth_time P (time_calls c)));
               ("tags", VNone); ("source", Source_default)]),
     Calls (S (uuid_calls c)) (S (time_calls c))).
Proof.
  unfold create_artifact_published_event.
  rewrite run_bind, run_Meta. reflexivity.
Qed.
End model_classes.

(** ** The factory and the constructors *)

Section factory_claims.
Implicit Types (P : provider) (c : calls).
Implicit Types (event_type version event_id time tags source : value).

(** C1: for every [linkedEventId] and every list of locations, the
    event of [create_artifact_published_event] has [meta.type]
    "EiffelArtifactPublishedEvent" and [meta.version] "3.0.0", its
    [links] is a list of exactly one link, of type "ARTIFACT" and with
    target [linkedEventId], its [data.locations] is the list given,
    and its [meta.source] has name "EIFFELACTORY" and [None] for
    [domainId], [host], [serializer] and [uri]. *)
Theorem create_artifact_published_event_shape
    P c (linkedEventId : string) (locations : list value) :
  let event :=
    (run P (create_artifact_published_event
              (VStr linkedEventId) (VList locations)) c).1 in
  path event ["meta"; "type"] = Ok (VStr "EiffelArtifactPublishedEvent") ∧
  path event ["meta"; "version"] = Ok (VStr "3.0.0") ∧
  (∃ link, path event ["links"] = Ok (VList [link]) ∧
     has_keys link {[ "type"; "target" ]} ∧
     path link ["type"] = Ok (VStr "ARTIFACT") ∧
     path link ["target"] = Ok (VStr linkedEventId)) ∧
  path event ["data"; "locations"] = Ok (VList locations) ∧
  path event ["meta"; "source"; "name"] = Ok (VStr "EIFFELACTORY") ∧
  path event ["meta"; "source"; "domainId"] = Ok VNone ∧
  path event ["meta"; "source"; "host"] = Ok VNone ∧
  path event ["meta"; "source"; "serializer"] = Ok VNone ∧
  path event ["meta"; "source"; "uri"] = Ok VNone.
Proof.
  rewrite run_create_artifact_published_event. simpl.
  repeat split; try reflexivity.
  eexists. split; [reflexivity|]. split; [|split]; [|reflexivity..].
  apply dict_init_keys. set_solver.
Qed.

(** C6: the document of a [Meta] construction holds under [id] the
    [event_id] given, or, when that is [None], the identifier the
    provider hands out at this call; and under [time] the [time]
    given, or, when that is [None], the time the provider reads at
    this call. The provider is called for what was left out only. *)
Theorem Meta_id_time_defaulting
    P c event_type version event_id time tags source :
  path (run P (Meta event_type version event_id time tags source) c).1 ["id"]
  = Ok (if is_None event_id
        then VStr (nth_uuid P (uuid_calls c)) else event_id) ∧
  path (run P (Meta event_type version event_id time tags source) c).1 ["time"]
  = Ok (if is_None time
        then VInt (nth_time P (time_calls c)) else time) ∧
  (run P (Meta event_type version event_id time tags source) c).2
  = Calls (if is_None event_id then S (uuid_calls c) else uuid_calls c)
          (if is_None time then S (time_calls c) else time_calls c).
Proof.
  rewrite run_Meta. simpl. by repeat split.
Qed.

(** C7: every document built here carries exactly the keys of its
    class, and each key holds the argument as it was given, so that an
    optional argument left at [None] is stored under its key as
    [None]: the key is not dropped and no other value stands in. *)
Theorem documents_have_fixed_keys :
  (∀ data links meta,
     has_keys (Event data links meta) {[ "data"; "links"; "meta" ]} ∧
     path (Event data links meta) ["data"] = Ok data ∧
     path (Event data links meta) ["links"] = Ok links ∧
     path (Event data links meta) ["meta"] = Ok meta) ∧
  (∀ P c event_type version event_id time tags source,
     let meta :=
       (run P (Meta event_type version event_id time tags source) c).1 in
     has_keys meta {[ "id"; "type"; "version"; "time"; "tags"; "source" ]} ∧
     path meta ["type"] = Ok event_type ∧
     path meta ["version"] = Ok version ∧
     path meta ["tags"] = Ok tags ∧
     path meta ["source"] = Ok source) ∧
  (∀ domain_id host name serializer uri,
     let source := Source domain_id host name serializer uri in
     has_keys source {[ "domainId"; "host"; "name"; "serializer"; "uri" ]} ∧
     path source ["domainId"] = Ok domain_id ∧
     path source ["host"] = Ok host ∧
     path source ["name"] = Ok name ∧
     path source ["serializer"] = Ok serializer ∧
     path source ["uri"] = Ok uri) ∧
  (∀ link_type target,
     has_keys (Link link_type target) {[ "type"; "target" ]} ∧
     path (Link link_type target) ["type"] = Ok link_type ∧
     path (Link link_type target) ["target"] = Ok target) ∧
  (∀ locations,
     has_keys (ArtifactPublishedData locations) {[ "locations" ]} ∧
     path (ArtifactPublishedData locations) ["locations"] = Ok locations) ∧
  (∀ uri location_type,
     has_keys (Location uri location_type) {[ "uri"; "type" ]} ∧
     path (Location uri location_type) ["uri"] = Ok uri ∧
     path (Location uri location_type) ["type"] = Ok location_type) ∧
  (∀ P c event_type version event_id time,
     let meta :=
       (run P (Meta event_type version event_id time VNone VNone) c).1 in
     path meta ["tags"] = Ok VNone ∧ path meta ["source"] = Ok VNone) ∧
  (let source := Source VNone VNone VNone VNone VNone in
   path source ["domainId"] = Ok VNone ∧
   path source ["host"] = Ok VNone ∧
   path source ["name"] = Ok VNone ∧
   path source ["serializer"] = Ok VNone ∧
   path source ["uri"] = Ok VNone).
Proof.
  repeat split; intros; try rewrite run_Meta; try reflexivity;
    apply dict_init_keys; set_solver.
Qed.

(** C9: the event of [create_artifact_published_event] always has
    [meta.tags] present, with value [None]. *)
Theorem create_artifact_published_event_tags
    P c (linkedEventId : string) (locations : list value) :
  path (run P (create_artifact_published_event
                 (VStr linkedEventId) (VList locations)) c).1
       ["meta"; "tags"] = Ok VNone.
Proof. by rewrite run_create_artifact_published_event. Qed.
End factory_claims.

Section provider_claims.
Implicit Types (P : provider) (c : calls).
Implicit Types (event_type version event_id time tags source : value).

(** Two calls of the factory in a row use the next two identifiers
    of the provider. *)
Lemma run_two_events P c a1 l1 a2 l2 :
  ∃ e1 e2,
    (run P (e1 ← create_artifact_published_event a1 l1;
            e2 ← create_artifact_published_event a2 l2;
            mret (e1, e2)) c).1 = (e1, e2) ∧
    path e1 ["meta"; "id"] = Ok (VStr (nth_uuid P (uuid_calls c))) ∧
    path e2 ["meta"; "id"] = Ok (VStr (nth_uuid P (S (uuid_calls c)))).
Proof.
  do 2 eexists. rewrite !run_bind.
  rewrite !run_create_artifact_published_event. simpl.
  by repeat split.
Qed.

Lemma counting_provider_distinct (i j : nat) :
  i ≠ j → nth_uuid counting_provider i ≠ nth_uuid counting_provider j.
Proof. simpl. intros Hij Heq. by apply Hij, (inj pretty). Qed.

(** C8: when the provider hands out different identifiers at
    different calls, two calls of
    [create_artifact_published_event] in a row return events with
    different [meta.id]. *)
Theorem successive_events_have_distinct_ids P c a1 l1 a2 l2 :
  (∀ i j : nat, i ≠ j → nth_uuid P i ≠ nth_uuid P j) →
  ∃ e1 e2 id1 id2,
    (run P (e1 ← create_artifact_published_event a1 l1;
            e2 ← create_artifact_published_event a2 l2;
            mret (e1, e2)) c).1 = (e1, e2) ∧
    path e1 ["meta"; "id"] = Ok id1 ∧
    path e2 ["meta"; "id"] = Ok id2 ∧
    id1 ≠ id2.
Proof.
  intros Hdistinct.
  destruct (run_two_events P c a1 l1 a2 l2) as (e1 & e2 & Hrun & H1 & H2).
  exists e1, e2. do 2 eexists. repeat split; [done..|].
  intros [= Heq]. by apply (Hdistinct (uuid_calls c) (S (uuid_calls c))).
Qed.

(** C10: with an [event_id] and a [time] that are not [None], [Meta]
    is a plain value: it returns its document without a call to the
    provider, so two constructions from equal arguments give equal
    documents under any two providers and call counts. *)
Theorem Meta_explicit_id_time_deterministic
    event_type version event_id time tags source :
  event_id ≠ VNone → time ≠ VNone →
  Meta event_type version event_id time tags source
  = Ret (dict_init [("id", event_id); ("type", event_type);
                    ("version", version); ("time", time);
                    ("tags", tags); ("source", source)]) ∧
  ∀ P1 P2 c1 c2,
    (run P1 (Meta event_type version event_id time tags source) c1).1
    = (run P2 (Meta event_type version event_id time tags source) c2).1 ∧
    (run P1 (Meta event_type version event_id time tags source) c1).2 = c1.
Proof.
  intros Hid Htime.
  assert (is_None event_id = false) as Hid' by by destruct event_id.
  assert (is_None time = false) as Htime' by by destruct time.
  split.
  - unfold Meta. by rewrite Hid', Htime'.
  - intros P1 P2 c1 c2. rewrite !run_Meta, Hid', Htime'. simpl.
    by destruct c1.
Qed.
End provider_claims.

(** ** Documents the classifiers raise on *)

(** C3, as stated, fails: on a document without [meta] each of the
    three classifiers raises [KeyError], and so do the two type checks
    on a document whose [meta] has no [type]. *)
Lemma classifiers_raise_on_incomplete_documents :
  is_eiffel_event_type (VDict ∅) "EiffelArtifactCreatedEvent"
  = Raise (KeyError "meta") ∧
  is_artifact_created_event (VDict ∅) = Raise (KeyError "meta") ∧
  is_sent_from_sources (VDict ∅) ["a"; "b"] = Raise (KeyError "meta") ∧
  is_eiffel_event_type (VDict {[ "meta" := VDict ∅ ]})
    "EiffelArtifactCreatedEvent" = Raise (KeyError "type") ∧
  is_artifact_created_event (VDict {[ "meta" := VDict ∅ ]})
  = Raise (KeyError "type").
Proof. repeat split; vm_compute; reflexivity. Qed.

(** ** The theorems at sample inputs *)

(** [is_sent_from_sources_spec] on an event sent from "a". *)
Lemma is_sent_from_sources_spec_witness :
  source_well_shaped sample_created_from_a = true ∧
  (path sample_created_from_a ["meta"; "source"] = Raise (KeyError "source") →
     is_sent_from_sources sample_created_from_a ["a"; "b"] = Ok false) ∧
  (path sample_created_from_a ["meta"; "source"] = Ok VNone →
     is_sent_from_sources sample_created_from_a ["a"; "b"] = Ok false) ∧
  (path sample_created_from_a ["meta"; "source"; "name"]
   = Raise (KeyError "name") →
     is_sent_from_sources sample_created_from_a ["a"; "b"] = Ok false) ∧
  (path sample_created_from_a ["meta"; "source"; "name"] = Ok VNone →
     is_sent_from_sources sample_created_from_a ["a"; "b"] = Ok false) ∧
  (∀ n, path sample_created_from_a ["meta"; "source"; "name"] = Ok n →
     (∀ name, n = VStr name → name ∉ ["a"; "b"]) →
     is_sent_from_sources sample_created_from_a ["a"; "b"] = Ok false) ∧
  (is_sent_from_sources sample_created_from_a ["a"; "b"] = Ok true ↔
     ∃ name,
       path sample_created_from_a ["meta"; "source"; "name"] = Ok (VStr name) ∧
       name ∈ ["a"; "b"]) ∧
  (∃ b, is_sent_from_sources sample_created_from_a ["a"; "b"] = Ok b).
Proof.
  split; [reflexivity|].
  apply (is_sent_from_sources_spec sample_created_from_a ["a"; "b"]).
  reflexivity.
Defined.

(** [classifiers_return_on_shaped_documents] on an event that has no
    [source] at all. *)
Lemma classifiers_return_on_shaped_documents_witness :
  source_well_shaped sample_without_source = true ∧
  (∃ b, is_sent_from_sources sample_without_source ["a"; "b"] = Ok b) ∧
  (path sample_without_source ["meta"; "source"] = Raise (KeyError "source") ∨
   path sample_without_source ["meta"; "source"] = Ok VNone ∨
   path sample_without_source ["meta"; "source"; "name"]
   = Raise (KeyError "name") ∨
   path sample_without_source ["meta"; "source"; "name"] = Ok VNone →
   is_sent_from_sources sample_without_source ["a"; "b"] = Ok false).
Proof.
  split; [reflexivity|].
  apply (classifiers_return_on_shaped_documents
           sample_without_source "X" ["a"; "b"]).
  reflexivity.
Defined.

(** [is_eiffel_event_type_iff] on an artifact-created event. *)
Lemma is_eiffel_event_type_iff_witness :
  path sample_created_from_a ["meta"; "type"]
  = Ok (VStr "EiffelArtifactCreatedEvent") ∧
  (is_eiffel_event_type sample_created_from_a "EiffelArtifactCreatedEvent"
   = Ok true ↔
   VStr "EiffelArtifactCreatedEvent" = VStr "EiffelArtifactCreatedEvent") ∧
  (is_eiffel_event_type sample_created_from_a "EiffelArtifactCreatedEvent"
   = Ok false ↔
   VStr "EiffelArtifactCreatedEvent" ≠ VStr "EiffelArtifactCreatedEvent").
Proof.
  split; [reflexivity|].
  apply (is_eiffel_event_type_iff sample_created_from_a
           (VStr "EiffelArtifactCreatedEvent") "EiffelArtifactCreatedEvent").
  reflexivity.
Defined.

(** [successive_events_have_distinct_ids] under the counting provider,
    whose identifiers are the numerals "0", "1", ... *)
Lemma successive_events_have_distinct_ids_witness :
  (∀ i j : nat,
     i ≠ j → nth_uuid counting_provider i ≠ nth_uuid counting_provider j) ∧
  ∃ e1 e2 id1 id2,
    (run counting_provider
       (e1 ← create_artifact_published_event (VStr "abc-123") (VList []);
        e2 ← create_artifact_published_event (VStr "abc-123") (VList []);
        mret (e1, e2)) no_calls).1 = (e1, e2) ∧
    path e1 ["meta"; "id"] = Ok id1 ∧
    path e2 ["meta"; "id"] = Ok id2 ∧
    id1 ≠ id2.
Proof.
  split; [exact counting_provider_distinct|].
  apply (successive_events_have_distinct_ids counting_provider no_calls
           (VStr "abc-123") (VList []) (VStr "abc-123") (VList [])).
  exact counting_provider_distinct.
Defined.

(** [Meta_explicit_id_time_deterministic] with both an identifier and
    a time given. *)
Lemma Meta_explicit_id_time_deterministic_witness :
  VStr "abc-123" ≠ VNone ∧ VInt 1700000000000 ≠ VNone ∧
  Meta (VStr "X") (VStr "3.0.0") (VStr "abc-123") (VInt 1700000000000)
       VNone VNone
  = Ret (dict_init [("id", VStr "abc-123"); ("type", VStr "X");
                    ("version", VStr "3.0.0"); ("time", VInt 1700000000000);
                    ("tags", VNone); ("source", VNone)]) ∧
  ∀ P1 P2 c1 c2,
    (run P1 (Meta (VStr "X") (VStr "3.0.0") (VStr "abc-123")
                  (VInt 1700000000000) VNone VNone) c1).1
    = (run P2 (Meta (VStr "X") (VStr "3.0.0") (VStr "abc-123")
                    (VInt 1700000000000) VNone VNone) c2).1 ∧
    (run P1 (Meta (VStr "X") (VStr "3.0.0") (VStr "abc-123")
                  (VInt 1700000000000) VNone VNone) c1).2 = c1.
Proof.
  split; [discriminate|]. split; [discriminate|].
  apply (Meta_explicit_id_time_deterministic
           (VStr "X") (VStr "3.0.0") (VStr "abc-123") (VInt 1700000000000)
           VNone VNone); discriminate.
Defined.


(** ** Events of the factory under the classifiers *)

Section factory_then_classifiers.
Implicit Types (P : provider) (c : calls) (sources : list string).
Implicit Types (artc_event_id locations : value).

Lemma in_names_VStr (name : string) sources :
  in_names (VStr name) sources = bool_decide (name ∈ sources).
Proof.
  destruct (in_names (VStr name) sources) eqn:Hin; symmetry.
  - apply bool_decide_eq_true. apply in_names_true in Hin as (s & [= ->] & Hs).
    done.
  - apply bool_decide_eq_false. intros Hs.
    assert (in_names (VStr name) sources = true) as Ht
      by (apply in_names_true; eauto).
    congruence.
Qed.

(** The whole result of the factory: the event is this document and
    nothing more, its [id] and [time] are what the provider gives at
    its next call of each kind, and each kind of call is made once,
    whatever the two arguments are (they are stored as given, a
    [locations] that is no list included). *)
Theorem create_artifact_published_event_exact
    P c artc_event_id locations :
  run P (create_artifact_published_event artc_event_id locations) c
  = (VDict {[
       "data" := VDict {[ "locations" := locations ]};
       "links" := VList [VDict {[ "type" := VStr "ARTIFACT";
                                  "target" := artc_event_id ]}];
       "meta" := VDict {[
         "id" := VStr (nth_uuid P (uuid_calls c));
         "type" := VStr "EiffelArtifactPublishedEvent";
         "version" := VStr "3.0.0";
         "time" := VInt (nth_time P (time_calls c));
         "tags" := VNone;
         "source" := VDict {[ "domainId" := VNone; "host" := VNone;
                              "name" := VStr "EIFFELACTORY";
                              "serializer" := VNone; "uri" := VNone ]} ]} ]},
     Calls (S (uuid_calls c)) (S (time_calls c))).
Proof. rewrite run_create_artifact_published_event. reflexivity. Qed.

(** An event of the factory is of type "EiffelArtifactPublishedEvent"
    and of no other type; in particular it is never taken for an
    artifact-created event. The type check does not raise on it. *)
Theorem created_event_type P c artc_event_id locations (event_type : string) :
  is_eiffel_event_type
    (run P (create_artifact_published_event artc_event_id locations) c).1
    event_type
  = Ok (bool_decide ("EiffelArtifactPublishedEvent" = event_type)) ∧
  is_artifact_created_event
    (run P (create_artifact_published_event artc_event_id locations) c).1
  = Ok false.
Proof. rewrite run_create_artifact_published_event. split; reflexivity. Qed.

(** An event of the factory is sent from [sources] exactly when
    "EIFFELACTORY" is one of them; the check does not raise on it. *)
Theorem created_event_sent_from P c artc_event_id locations sources :
  is_sent_from_sources
    (run P (create_artifact_published_event artc_event_id locations) c).1
    sources
  = Ok (bool_decide ("EIFFELACTORY" ∈ sources)).
Proof.
  rewrite run_create_artifact_published_event, <- in_names_VStr.
  reflexivity.
Qed.
End factory_then_classifiers.

(** ** Identifiers across a whole run *)

Section identifiers.
Context {B : Type}.
Implicit Types (P : provider) (c : calls).

(** Whatever runs between two calls of the factory, more calls of the
    provider included, the two events have different [meta.id] when the
    provider never hands out an identifier twice. *)
Theorem events_of_one_run_have_distinct_ids
    P c a1 l1 (between : value → prog B) a2 l2 :
  (∀ i j : nat, i ≠ j → nth_uuid P i ≠ nth_uuid P j) →
  ∃ e1 e2 id1 id2,
    (run P (e1 ← create_artifact_published_event a1 l1;
            _ ← between e1;
            e2 ← create_artifact_published_event a2 l2;
            mret (e1, e2)) c).1 = (e1, e2) ∧
    path e1 ["meta"; "id"] = Ok id1 ∧
    path e2 ["meta"; "id"] = Ok id2 ∧
    id1 ≠ id2.
Proof.
  intros Hdistinct.
  rewrite run_bind, run_create_artifact_published_event. cbn [fst snd].
  set (c1 := Calls (S (uuid_calls c)) (S (time_calls c))).
  set (e1 := Event _ _ _).
  rewrite run_bind.
  destruct (run_calls_mono P (between e1) c1) as [Hle _].
  set (c2 := (run P (between e1) c1).2) in *.
  rewrite run_bind, run_create_artifact_published_event. cbn [fst snd].
  eexists e1, _, _, _.
  split; [reflexivity|]. split; [reflexivity|]. split; [reflexivity|].
  intros [= Heq]. revert Heq. apply Hdistinct.
  subst c1. simpl in Hle. lia.
Qed.
End identifiers.

(** [events_of_one_run_have_distinct_ids] under the counting provider,
    with a [Meta] constructed between the two events. *)
Lemma events_of_one_run_have_distinct_ids_witness :
  (∀ i j : nat,
     i ≠ j → nth_uuid counting_provider i ≠ nth_uuid counting_provider j) ∧
  ∃ e1 e2 id1 id2,
    (run counting_provider
       (e1 ← create_artifact_published_event (VStr "abc-123") (VList []);
        _ ← Meta (VStr "X") (VStr "3.0.0") VNone VNone VNone VNone;
        e2 ← create_artifact_published_event (VStr "abc-123") (VList []);
        mret (e1, e2)) no_calls).1 = (e1, e2) ∧
    path e1 ["meta"; "id"] = Ok id1 ∧
    path e2 ["meta"; "id"] = Ok id2 ∧
    id1 ≠ id2.
Proof.
  split; [exact counting_provider_distinct|].
  apply (events_of_one_run_have_distinct_ids counting_provider no_calls
           (VStr "abc-123") (VList [])
           (λ _, Meta (VStr "X") (VStr "3.0.0") VNone VNone VNone VNone)
           (VStr "abc-123") (VList [])).
  exact counting_provider_distinct.
Defined.

(** ** More on the classifiers *)

Section classifier_edges.
Implicit Types (event v meta : value) (d m s : gmap string value).
Implicit Types (event_type : string) (sources : list string).

(** The repeated reads of [is_sent_from_sources] folded into one
    read of each field. *)
Lemma is_sent_from_sources_reads event sources :
  is_sent_from_sources event sources
  = (meta ← getitem event "meta";
     has_source ← contains "source" meta;
     if has_source : bool then
       src ← getitem meta "source";
       if is_None src then Ok false else
       has_name ← contains "name" src;
       if has_name : bool then
         n ← getitem src "name"; Ok (in_names n sources)
       else Ok false
     else Ok false).
Proof.
  unfold is_sent_from_sources. simpl.
  destruct (getitem event "meta") as [meta|]; simpl; [|done].
  destruct (contains "source" meta) as [[]|]; simpl; try done.
  destruct (getitem meta "source") as [src|]; simpl; [|done].
  destruct (is_None src); simpl; [done|].
  destruct (contains "name" src) as [[]|]; simpl; try done.
  destruct (getitem src "name") as [n|]; simpl; [|done].
  destruct n; simpl; try done. by rewrite in_names_None.
Qed.

Lemma in_names_same_elements v sources1 sources2 :
  (∀ name, name ∈ sources1 ↔ name ∈ sources2) →
  in_names v sources1 = in_names v sources2.
Proof.
  intros Hsame.
  destruct (in_names v sources1) eqn:H1, (in_names v sources2) eqn:H2;
    try done.
  - apply in_names_true in H1 as (name & -> & Hin). apply Hsame in Hin.
    rewrite <- H2. symmetry. apply in_names_true. eauto.
  - apply in_names_true in H2 as (name & -> & Hin). apply Hsame in Hin.
    rewrite <- H1. apply in_names_true. eauto.
Qed.

Lemma is_prefix_spec (p t : string) :
  is_prefix p t = true ↔ ∃ b, t = p +:+ b.
Proof.
  revert t. induction p as [|a p IH]; intros t; simpl.
  - split; eauto.
  - destruct t as [|a' t].
    + split; [done | by intros [b [=]]].
    + destruct (decide (a = a')) as [->|Hne].
      * rewrite IH. split.
        -- intros [b ->]. by exists b.
        -- intros [b [= ->]]. by exists b.
      * split; [done | intros [b [= ? _]]; done].
Qed.

(** [str_contains p t] is Python's [p in t] on strings: [p] occurs
    somewhere in [t]. *)
Lemma str_contains_spec (p t : string) :
  str_contains p t = true ↔ ∃ a b, t = a +:+ p +:+ b.
Proof.
  induction t as [|x t IH].
  - simpl. rewrite orb_false_r, is_prefix_spec. split.
    + intros [b Hb]. by exists "", b.
    + intros (a & b & Hab). destruct a; [|done]. by exists b.
  - cbn [str_contains]. rewrite orb_true_iff, is_prefix_spec, IH. split.
    + intros [[b Hb] | (a & b & ->)].
      * by exists "", b.
      * by exists (String x a), b.
    + intros (a & b & Hab). destruct a as [|y a].
      * left. by exists b.
      * right. injection Hab as -> ->. by exists a, b.
Qed.

(** The answer of [is_sent_from_sources] depends on which names are
    in [sources] only: their order and their repetitions make no
    difference, to the value returned or to the exception raised. *)
Theorem is_sent_from_sources_same_elements event sources1 sources2 :
  (∀ name, name ∈ sources1 ↔ name ∈ sources2) →
  is_sent_from_sources event sources1 = is_sent_from_sources event sources2.
Proof.
  intros Hsame. rewrite !is_sent_from_sources_reads. simpl.
  destruct (getitem event "meta") as [meta|]; simpl; [|done].
  destruct (contains "source" meta) as [[]|]; simpl; try done.
  destruct (getitem meta "source") as [src|]; simpl; [|done].
  destruct (is_None src); simpl; [done|].
  destruct (contains "name" src) as [[]|]; simpl; try done.
  destruct (getitem src "name") as [n|]; simpl; [|done].
  f_equal. by apply in_names_same_elements.
Qed.

(** A positive answer survives adding names to [sources], and no
    document at all is sent from the empty list of sources. *)
Theorem is_sent_from_sources_monotone event sources1 sources2 :
  sources1 ⊆ sources2 →
  is_sent_from_sources event sources1 = Ok true →
  is_sent_from_sources event sources2 = Ok true.
Proof.
  intros Hsub. rewrite !is_sent_from_sources_true.
  intros (name & Hp & Hin). exists name. split; [done|]. by apply Hsub.
Qed.

Theorem is_sent_from_sources_no_sources event :
  is_sent_from_sources event [] ≠ Ok true.
Proof.
  rewrite is_sent_from_sources_true. intros (name & _ & Hin).
  by apply elem_of_nil in Hin.
Qed.
End classifier_edges.

Section classifier_errors.
Implicit Types (event v meta : value) (d m s : gmap string value).
Implicit Types (event_type : string) (sources : list string) (e : exn).

(** Which exception the type check raises, and when: [KeyError] for
    the missing key, "meta" or "type", on objects; [TypeError] when the
    document or its [meta] is no object; nothing else. *)
Theorem is_eiffel_event_type_errors event event_type :
  (is_eiffel_event_type event event_type = Raise (KeyError "meta") ↔
     ∃ d, event = VDict d ∧ d !! "meta" = None) ∧
  (is_eiffel_event_type event event_type = Raise (KeyError "type") ↔
     ∃ d m, event = VDict d ∧ d !! "meta" = Some (VDict m) ∧
            m !! "type" = None) ∧
  (is_eiffel_event_type event event_type = Raise TypeError ↔
     (∀ d, event ≠ VDict d) ∨
     ∃ d meta, event = VDict d ∧ d !! "meta" = Some meta ∧
               ∀ m, meta ≠ VDict m) ∧
  (∀ e, is_eiffel_event_type event event_type = Raise e →
     e = KeyError "meta" ∨ e = KeyError "type" ∨ e = TypeError).
Proof.
  unfold is_eiffel_event_type.
  destruct event as [| | | | |d]; simpl;
    try (repeat split; try done;
         [by intros (? & [=] & _) | by intros (? & ? & [=] & _)
         | by left | intros ? [= <-]; eauto]).
  destruct (d !! "meta") as [meta|] eqn:Hmeta; simpl.
  - destruct meta as [| | | | |m]; simpl;
      try (repeat split; try done;
           [by intros (? & [= <-] & ?); simplify_eq
           | by intros (? & ? & [= <-] & ? & _); simplify_eq
           | intros _; right; eauto
           | intros ? [= <-]; eauto]).
    destruct (m !! "type") as [ty|] eqn:Hty; simpl.
    + repeat split; try done.
      * intros (? & [= <-] & ?). simplify_eq.
      * intros (? & ? & [= <-] & ? & ?). simplify_eq.
      * intros [H | (? & ? & [= <-] & ? & H)]; [by destruct (H d)|].
        simplify_eq. by destruct (H m).
    + repeat split; try done.
      * intros (? & [= <-] & ?). simplify_eq.
      * eauto.
      * intros [H | (? & ? & [= <-] & ? & H)]; [by destruct (H d)|].
        simplify_eq. by destruct (H m).
      * intros ? [= <-]. eauto.
  - repeat split; try done.
    + eauto.
    + intros (? & ? & [= <-] & ? & _). simplify_eq.
    + intros [H | (? & ? & [= <-] & ? & H)]; [by destruct (H d)|].
      simplify_eq.
    + intros ? [= <-]. eauto.
Qed.
(** The guards of [is_sent_from_sources] hold: it never raises
    [KeyError] for "source" or for "name". What it can raise is
    [KeyError] for "meta", exactly on an object without that key, and
    [TypeError]. *)
Theorem is_sent_from_sources_errors event sources :
  (∀ e, is_sent_from_sources event sources = Raise e →
     e = KeyError "meta" ∨ e = TypeError) ∧
  (is_sent_from_sources event sources = Raise (KeyError "meta") ↔
     ∃ d, event = VDict d ∧ d !! "meta" = None).
Proof.
  rewrite is_sent_from_sources_reads.
  destruct event as [| | | | |d]; simpl;
    try (split; [intros ? [= <-]; eauto
                | split; [done | by intros (? & [=] & _)]]).
  destruct (d !! "meta") as [meta|] eqn:Hmeta; simpl.
  - assert (∀ r : result bool,
      (∀ e, r = Raise e → e = TypeError) →
      (∀ e, r = Raise e → e = KeyError "meta" ∨ e = TypeError) ∧
      (r = Raise (KeyError "meta") ↔
         ∃ d0, VDict d = VDict d0 ∧ d0 !! "meta" = None)) as Hwrap.
    { intros r Hr. split; [eauto|]. split.
      - intros Hk. by specialize (Hr _ Hk).
      - intros (? & [= <-] & ?). simplify_eq. }
    apply Hwrap. clear Hwrap.
    destruct meta as [| |?|x|l|m]; simpl; try (by intros ? [= <-]).
    + destruct (str_contains "source" x); simpl; by intros ? [= <-].
    + destruct (existsb _ l); simpl; by intros ? [= <-].
    + destruct (m !! "source") as [src|] eqn:Hsrc; simpl; [|done].
      destruct src as [| |?|x|l|s]; simpl; try done;
        try (by intros ? [= <-]).
      * destruct (str_contains "name" x); simpl; by intros ? [= <-].
      * destruct (existsb _ l); simpl; by intros ? [= <-].
      * by destruct (s !! "name").
  - split; [intros ? [= <-]; eauto|]. split; eauto.
Qed.

(** A document is of one type at most. *)
Theorem is_eiffel_event_type_unique event (type1 type2 : string) :
  is_eiffel_event_type event type1 = Ok true →
  is_eiffel_event_type event type2 = Ok true →
  type1 = type2.
Proof.
  rewrite !is_eiffel_event_type_path.
  destruct (path event ["meta"; "type"]) as [ty|]; simpl; [|done].
  intros [= H1] [= H2].
  apply eq_str_true in H1, H2. congruence.
Qed.

(** A [meta.type] that is no string (null, a number, a list, ...) is
    of no type: the check answers false for every [event_type] and does
    not raise. *)
Theorem is_eiffel_event_type_not_a_string event ty event_type :
  path event ["meta"; "type"] = Ok ty →
  (∀ name, ty ≠ VStr name) →
  is_eiffel_event_type event event_type = Ok false.
Proof.
  intros Hp Hty. rewrite is_eiffel_event_type_path, Hp. simpl. f_equal.
  apply eq_str_false, Hty.
Qed.

(** The classifiers look at [meta] only: two documents whose [meta]
    reads the same (the same value, or the same exception) are
    classified alike, whatever else they hold. *)
Theorem classifiers_read_meta_only event1 event2 event_type sources :
  getitem event1 "meta" = getitem event2 "meta" →
  is_eiffel_event_type event1 event_type
  = is_eiffel_event_type event2 event_type ∧
  is_artifact_created_event event1 = is_artifact_created_event event2 ∧
  is_sent_from_sources event1 sources = is_sent_from_sources event2 sources.
Proof.
  intros Hmeta. rewrite !is_sent_from_sources_reads.
  unfold is_artifact_created_event, is_eiffel_event_type.
  by rewrite Hmeta.
Qed.

(** When [meta.source] is a text instead of an object, the guard
    ['name' not in source] looks for "name" inside the text: the check
    answers false when the text does not contain it and raises
    [TypeError] when it does. *)
Theorem is_sent_from_sources_text_source d m (text : string) sources :
  d !! "meta" = Some (VDict m) →
  m !! "source" = Some (VStr text) →
  ((∃ before after, text = before +:+ "name" +:+ after) →
     is_sent_from_sources (VDict d) sources = Raise TypeError) ∧
  (¬ (∃ before after, text = before +:+ "name" +:+ after) →
     is_sent_from_sources (VDict d) sources = Ok false).
Proof.
  intros Hm Hs. rewrite is_sent_from_sources_reads. simpl.
  rewrite Hm. simpl. rewrite Hs. simpl.
  rewrite <- (str_contains_spec "name" text).
  destruct (str_contains "name" text); simpl; split; done.
Qed.
(** A [meta] that is null, a boolean or a number makes
    [is_sent_from_sources] raise [TypeError], and so does a
    [meta.source] that is a boolean or a number: null is tolerated for
    [source] and [name] only. *)
Theorem is_sent_from_sources_scalar d meta sources :
  d !! "meta" = Some meta →
  (meta = VNone ∨ (∃ b, meta = VBool b) ∨ (∃ z, meta = VInt z) →
     is_sent_from_sources (VDict d) sources = Raise TypeError) ∧
  (∀ m src, meta = VDict m → m !! "source" = Some src →
     (∃ b, src = VBool b) ∨ (∃ z, src = VInt z) →
     is_sent_from_sources (VDict d) sources = Raise TypeError).
Proof.
  intros Hmeta. rewrite is_sent_from_sources_reads. simpl.
  rewrite Hmeta. simpl. split.
  - by intros [-> | [[b ->] | [z ->]]].
  - intros m src -> Hsrc Hscalar. simpl. rewrite Hsrc. simpl.
    by destruct Hscalar as [[b ->] | [z ->]].
Qed.
End classifier_errors.

(** ** These theorems at sample inputs *)

Lemma sample_sources_same_elements (name : string) :
  name ∈ ["a"; "b"] ↔ name ∈ ["b"; "a"; "a"].
Proof. set_solver. Qed.

Lemma sample_sources_subset : ["a"] ⊆ ["a"; "b"].
Proof. set_solver. Qed.

(** [is_sent_from_sources_same_elements] with the names reordered and
    one repeated. *)
Lemma is_sent_from_sources_same_elements_witness :
  (∀ name : string, name ∈ ["a"; "b"] ↔ name ∈ ["b"; "a"; "a"]) ∧
  is_sent_from_sources sample_created_from_a ["a"; "b"]
  = is_sent_from_sources sample_created_from_a ["b"; "a"; "a"].
Proof.
  split; [exact sample_sources_same_elements|].
  apply (is_sent_from_sources_same_elements
           sample_created_from_a ["a"; "b"] ["b"; "a"; "a"]).
  exact sample_sources_same_elements.
Defined.

(** [is_sent_from_sources_monotone] with "b" added to the sources. *)
Lemma is_sent_from_sources_monotone_witness :
  ["a"] ⊆ ["a"; "b"] ∧
  is_sent_from_sources sample_created_from_a ["a"] = Ok true ∧
  is_sent_from_sources sample_created_from_a ["a"; "b"] = Ok true.
Proof.
  split; [exact sample_sources_subset|]. split; [reflexivity|].
  apply (is_sent_from_sources_monotone sample_created_from_a ["a"] ["a"; "b"]).
  - exact sample_sources_subset.
  - reflexivity.
Defined.

(** [is_eiffel_event_type_unique] on an artifact-created event. *)
Lemma is_eiffel_event_type_unique_witness :
  is_eiffel_event_type sample_created_from_a EIFFEL_ARTIFACT_CREATED_EVENT
  = Ok true ∧
  is_eiffel_event_type sample_created_from_a "EiffelArtifactCreatedEvent"
  = Ok true ∧
  EIFFEL_ARTIFACT_CREATED_EVENT = "EiffelArtifactCreatedEvent".
Proof.
  split; [reflexivity|]. split; [reflexivity|].
  apply (is_eiffel_event_type_unique sample_created_from_a
           EIFFEL_ARTIFACT_CREATED_EVENT "EiffelArtifactCreatedEvent");
    reflexivity.
Defined.

(** [is_eiffel_event_type_not_a_string] on [{"meta": {"type": 7}}]. *)
Lemma is_eiffel_event_type_not_a_string_witness :
  path (VDict {[ "meta" := VDict {[ "type" := VInt 7 ]} ]}) ["meta"; "type"]
  = Ok (VInt 7) ∧
  (∀ name, VInt 7 ≠ VStr name) ∧
  is_eiffel_event_type (VDict {[ "meta" := VDict {[ "type" := VInt 7 ]} ]}) "7"
  = Ok false.
Proof.
  split; [reflexivity|]. split; [discriminate|].
  apply (is_eiffel_event_type_not_a_string
           (VDict {[ "meta" := VDict {[ "type" := VInt 7 ]} ]}) (VInt 7) "7");
    [reflexivity | discriminate].
Defined.

(** [classifiers_read_meta_only] on two documents with the same
    [meta], one of them with a [data] besides. *)
Lemma classifiers_read_meta_only_witness :
  getitem sample_without_source "meta"
  = getitem (VDict {[ "meta" := VDict {[ "type" := VStr "X" ]};
                      "data" := VInt 1 ]}) "meta" ∧
  is_eiffel_event_type sample_without_source "X"
  = is_eiffel_event_type
      (VDict {[ "meta" := VDict {[ "type" := VStr "X" ]};
                "data" := VInt 1 ]}) "X" ∧
  is_artifact_created_event sample_without_source
  = is_artifact_created_event
      (VDict {[ "meta" := VDict {[ "type" := VStr "X" ]};
                "data" := VInt 1 ]}) ∧
  is_sent_from_sources sample_without_source ["a"]
  = is_sent_from_sources
      (VDict {[ "meta" := VDict {[ "type" := VStr "X" ]};
                "data" := VInt 1 ]}) ["a"].
Proof.
  split; [reflexivity|].
  apply (classifiers_read_meta_only sample_without_source
           (VDict {[ "meta" := VDict {[ "type" := VStr "X" ]};
                     "data" := VInt 1 ]}) "X" ["a"]).
  reflexivity.
Defined.

(** [is_sent_from_sources_text_source] on
    [{"meta": {"source": "nickname"}}]. *)
Lemma is_sent_from_sources_text_source_witness :
  ({[ "meta" := VDict {[ "source" := VStr "nickname" ]} ]}
     : gmap string value) !! "meta"
  = Some (VDict {[ "source" := VStr "nickname" ]}) ∧
  ({[ "source" := VStr "nickname" ]} : gmap string value) !! "source"
  = Some (VStr "nickname") ∧
  ((∃ before after, "nickname" = before +:+ "name" +:+ after) →
     is_sent_from_sources
       (VDict {[ "meta" := VDict {[ "source" := VStr "nickname" ]} ]}) ["a"]
     = Raise TypeError) ∧
  (¬ (∃ before after, "nickname" = before +:+ "name" +:+ after) →
     is_sent_from_sources
       (VDict {[ "meta" := VDict {[ "source" := VStr "nickname" ]} ]}) ["a"]
     = Ok false).
Proof.
  split; [reflexivity|]. split; [reflexivity|].
  apply (is_sent_from_sources_text_source
           {[ "meta" := VDict {[ "source" := VStr "nickname" ]} ]}
           {[ "source" := VStr "nickname" ]} "nickname" ["a"]);
    reflexivity.
Defined.

(** [is_sent_from_sources_scalar] on [{"meta": null}]. *)
Lemma is_sent_from_sources_scalar_witness :
  ({[ "meta" := VNone ]} : gmap string value) !! "meta" = Some VNone ∧
  (VNone = VNone ∨ (∃ b, VNone = VBool b) ∨ (∃ z, VNone = VInt z) →
     is_sent_from_sources (VDict {[ "meta" := VNone ]}) ["a"]
     = Raise TypeError) ∧
  (∀ m src, VNone = VDict m → m !! "source" = Some src →
     (∃ b, src = VBool b) ∨ (∃ z, src = VInt z) →
     is_sent_from_sources (VDict {[ "meta" := VNone ]}) ["a"]
     = Raise TypeError).
Proof.
  split; [reflexivity|].
  apply (is_sent_from_sources_scalar {[ "meta" := VNone ]} VNone ["a"]).
  reflexivity.
Defined.
